(** * A shallow embedding of [src/main.py] (Contoso sales assistant demo)

    The program is one coroutine, [initialize], run once by the [__main__]
    block.  Every call it makes into the cloud agent SDK or into the local
    [SalesData] store is modelled as an effect of a small state/exception
    monad: the state records the process-wide flag [AGENT_READY], the log of
    SDK calls issued so far (with their outcome), the service's id counter and
    the lines written by [logger.error].  Whether the k-th call raises, and
    with which message, is decided by the environment [env_fail]; what the
    data store answers for its schema is [env_schema]. *)

From Stdlib Require Import String Ascii List Bool Arith ZArith Lia Permutation QArith.
Import ListNotations.

Close Scope Q_scope.
Open Scope string_scope.

(* ------------------------------------------------------------------ *)
(** ** Python's [repr] of a [str] and [str] of a tuple of strings *)

(** Rocq characters are read as the code points U+0000..U+00FF. *)
Definition hex_digit (n : nat) : ascii :=
  if Nat.ltb n 10 then ascii_of_nat (48 + n) else ascii_of_nat (87 + n).

Definition backslash : ascii := ascii_of_nat 92.
Definition squote : ascii := ascii_of_nat 39.
Definition dquote : ascii := ascii_of_nat 34.

(** [str.isprintable] on U+0080..U+00FF: the C1 controls, U+00A0 (no-break
    space) and U+00AD (soft hyphen) are not printable. *)
Definition latin1_printable (n : nat) : bool :=
  Nat.leb 161 n && negb (Nat.eqb n 173).

(** One character of [unicode_repr] (CPython, Objects/unicodeobject.c) with
    the chosen quote [q]. *)
Definition repr_char (q c : ascii) : string :=
  let n := nat_of_ascii c in
  if Ascii.eqb c q || Ascii.eqb c backslash then String backslash (String c EmptyString)
  else if Nat.eqb n 9 then String backslash "t"
  else if Nat.eqb n 10 then String backslash "n"
  else if Nat.eqb n 13 then String backslash "r"
  else if Nat.ltb n 32 || Nat.eqb n 127 || (Nat.leb 128 n && negb (latin1_printable n)) then
    String backslash (String "x" (String (hex_digit (n / 16)) (String (hex_digit (n mod 16)) EmptyString)))
  else String c EmptyString.

Fixpoint has_char (c : ascii) (s : string) : bool :=
  match s with
  | EmptyString => false
  | String d s' => Ascii.eqb c d || has_char c s'
  end.

Fixpoint repr_body (q : ascii) (s : string) : string :=
  match s with
  | EmptyString => EmptyString
  | String c s' => repr_char q c ++ repr_body q s'
  end.

(** [repr(s)]: single quotes, unless [s] has a single quote and no double one. *)
Definition py_repr (s : string) : string :=
  let q := if has_char squote s && negb (has_char dquote s) then dquote else squote in
  String q (repr_body q s ++ String q EmptyString).

Fixpoint join_comma (xs : list string) : string :=
  match xs with
  | [] => EmptyString
  | [x] => x
  | x :: xs' => x ++ ", " ++ join_comma xs'
  end.

(** [str(t)] for a tuple [t] of strings. *)
Definition py_str_tuple (t : list string) : string :=
  match t with
  | [x] => "(" ++ py_repr x ++ ",)"
  | _ => "(" ++ join_comma (map py_repr t) ++ ")"
  end.

(** Substring test ([needle in haystack]). *)
Fixpoint py_contains (needle hay : string) : bool :=
  String.prefix needle hay ||
  match hay with
  | EmptyString => false
  | String _ hay' => py_contains needle hay'
  end.

(* ------------------------------------------------------------------ *)
(** ** The [instructions] tuple (main.py lines 62-91)

    The parenthesised, comma-separated literals form a 23-element tuple, the
    third one being the f-string that embeds the schema. *)

Definition instructions_tuple (database_schema_string : string) : list string :=
  [ "You are an advanced sales analysis assistant for Contoso, specializing in assisting users with sales data inquiries. Maintain a polite, professional, helpful, and friendly demeanor at all times.";
    "Use the `fetch_sales_data_using_sqlite_query` function to execute sales data queries, defaulting to aggregated data unless a detailed breakdown is requested. The function returns JSON-formatted results.";
    "Refer to the Contoso sales database schema: " ++ database_schema_string ++ ".";
    "When asked for 'help,' provide example queries such as:";
    "- 'What was last quarter's revenue?'";
    "- 'Top-selling products in Europe?'";
    "- 'Total shipping costs by region?'";
    "Responsibilities:";
    "1. Data Analysis: Provide clear insights based on available sales data.";
    "2. Visualizations: Generate charts or graphs to illustrate trends.";
    "3. Scope Awareness:";
    "   - For non-sales-related or out-of-scope questions, reply with:";
    "     'I'm unable to assist with that. Please contact IT for further assistance.'";
    "   - For help requests, suggest actionable and relevant questions.";
    "4. Handling Difficult Interactions:";
    "   - Remain calm and professional when dealing with upset or hostile users.";
    "   - Respond with: 'I'm here to help with your sales data inquiries. If you need further assistance, please contact IT.'";
    "Conduct Guidelines:";
    "- Always maintain a professional and courteous tone.";
    "- Only use data from the Contoso sales database.";
    "- Avoid sharing sensitive or confidential information.";
    "- For questions outside your expertise or unclear queries, respond with:";
    "  'I'm unable to assist with that. Please ask more specific questions about Contoso sales or contact IT for help.'" ].

(* ------------------------------------------------------------------ *)
(** ** Tools (main.py lines 29-50) *)

Inductive tool_def :=
| FunctionDefinition (name : string)
| CodeInterpreterDefinition.

Inductive tool :=
| AsyncFunctionTool (fns : list string)
| CodeInterpreterTool.

(** [tool.definitions] *)
Definition definitions (t : tool) : list tool_def :=
  match t with
  | AsyncFunctionTool fns => map FunctionDefinition fns
  | CodeInterpreterTool => [CodeInterpreterDefinition]
  end.

(** The set holds one bound method; the SDK names it by its [__name__]. *)
Definition user_async_functions : list string :=
  ["async_fetch_sales_data_using_sqlite_query"].

Definition functions : tool := AsyncFunctionTool user_async_functions.

Definition code_interpreter : tool := CodeInterpreterTool.

(** [toolset = AsyncToolSet(); toolset.add(functions); toolset.add(code_interpreter)] *)
Definition toolset : list tool := [functions; code_interpreter].

(** [MyEventHandler(functions=functions, project_client=project_client)] *)
Record event_handler := MyEventHandler { eh_functions : tool }.

(* ------------------------------------------------------------------ *)
(** ** The SDK and data-store calls, and what the process remembers *)

Inductive api_call :=
| Connect                                   (* await sales_data.connect() *)
| GetDatabaseInfo                           (* await sales_data.get_database_info() *)
| CreateAgent (model : option string) (name instructions : string)
              (tools : option (list tool_def))
| CreateThread
| CreateMessage (thread_id : nat) (role content : string)
| CreateStream (thread_id assistant_id : nat) (handler : event_handler)
               (max_completion_tokens max_prompt_tokens : Z)
               (temperature : option Q)
| UntilDone (stream_id : nat)               (* async with stream as s: await s.until_done() *)
| DeleteThread (thread_id : nat)
| DeleteAgent (agent_id : nat).

(** A call either returns (the id of what it created, for the creating calls)
    or raises an exception carrying [str(e)]. *)
Inductive outcome :=
| Returned (created : option nat)
| Raised (msg : string).

Record event := Event { ev_call : api_call; ev_outcome : outcome }.

Record state := State {
  AGENT_READY : bool;
  trace : list event;
  next_id : nat;
  logs : list string
}.

(** The process before [initialize] runs: [AGENT_READY = False]. *)
Definition init_state : state := State false [] 0 [].

(** What the outside world does: the deployment name read from the
    environment, the schema text the store returns, and whether the k-th call
    (counted from process start) raises. *)
Record env := Env {
  env_model : option string;
  env_schema : string;
  env_fail : nat -> option string
}.

Inductive result (A : Type) :=
| Ok (a : A)
| Exc (msg : string).
Arguments Ok {A} a.
Arguments Exc {A} msg.

Definition M (A : Type) : Type := state -> result A * state.

Definition ret {A} (a : A) : M A := fun s => (Ok a, s).

Definition bind {A B} (m : M A) (f : A -> M B) : M B :=
  fun s => match m s with
           | (Ok a, s') => f a s'
           | (Exc e, s') => (Exc e, s')
           end.

Notation "x <- m ;; k" := (bind m (fun x => k))
  (at level 61, m at next level, right associativity).
Notation "m ;; k" := (bind m (fun _ => k))
  (at level 61, right associativity).

(** [try: body except Exception as e: handler(str(e))] *)
Definition try_except {A} (body : M A) (handler : string -> M A) : M A :=
  fun s => match body s with
           | (Exc e, s') => handler e s'
           | r => r
           end.

Definition get_AGENT_READY : M bool := fun s => (Ok (AGENT_READY s), s).

Definition logger_error (msg : string) : M unit :=
  fun s => (Ok tt, State (AGENT_READY s) (trace s) (next_id s) (logs s ++ [msg])).

Definition record_event (s : state) (e : event) (fresh : bool) : state :=
  State (AGENT_READY s) (trace s ++ [e])
        (if fresh then S (next_id s) else next_id s) (logs s).

(** One call; a creating call ([fresh = true]) returns the next service id. *)
Definition sdk (ev : env) (c : api_call) (fresh : bool) : M nat :=
  fun s => match env_fail ev (length (trace s)) with
           | Some msg => (Exc msg, record_event s (Event c (Raised msg)) false)
           | None =>
               if fresh
               then (Ok (next_id s), record_event s (Event c (Returned (Some (next_id s)))) true)
               else (Ok 0, record_event s (Event c (Returned None)) false)
           end.

Definition sales_data_connect (ev : env) : M unit :=
  sdk ev Connect false;; ret tt.

Definition sales_data_get_database_info (ev : env) : M string :=
  sdk ev GetDatabaseInfo false;; ret (env_schema ev).

Definition create_agent (ev : env) model name instructions tools : M nat :=
  sdk ev (CreateAgent model name instructions tools) true.

Definition create_thread (ev : env) : M nat := sdk ev CreateThread true.

Definition create_message (ev : env) thread_id role content : M nat :=
  sdk ev (CreateMessage thread_id role content) true.

Definition create_stream (ev : env) thread_id assistant_id handler mct mpt temp : M nat :=
  sdk ev (CreateStream thread_id assistant_id handler mct mpt temp) true.

Definition until_done (ev : env) (stream : nat) : M unit :=
  sdk ev (UntilDone stream) false;; ret tt.

Definition delete_thread (ev : env) (thread_id : nat) : M unit :=
  sdk ev (DeleteThread thread_id) false;; ret tt.

Definition delete_agent (ev : env) (agent_id : nat) : M unit :=
  sdk ev (DeleteAgent agent_id) false;; ret tt.

(* ------------------------------------------------------------------ *)
(** ** [initialize] (main.py lines 53-170) *)

Definition error_message (e : string) : string :=
  "An error occurred initializing the assistant: " ++ e.

(** The body of the [try] block, lines 96-166 ([print] calls omitted). *)
Definition initialize_try (ev : env) (instructions : list string) : M unit :=
  agent <- create_agent ev (env_model ev) "Contoso Sales Assistant"
             "You are a helpful assistant" None;;
  thread <- create_thread ev;;
  message <- create_message ev thread "user" "what is love in 100 words";;
  stream <- create_stream ev thread agent (MyEventHandler functions)
              10480%Z 10480%Z None;;
  until_done ev stream;;
  delete_thread ev thread;;
  delete_agent ev agent;;
  agent <- create_agent ev (env_model ev) "Contoso Sales Assistant"
             (py_str_tuple instructions) (Some (definitions functions));;
  thread <- create_thread ev;;
  message <- create_message ev thread "user"
               "What were the total sales by region for 2023";;
  stream <- create_stream ev thread agent (MyEventHandler functions)
              4096%Z 4096%Z (Some (1 # 5)%Q);;
  until_done ev stream;;
  delete_thread ev thread;;
  delete_agent ev agent.

Definition initialize (ev : env) : M unit :=
  ready <- get_AGENT_READY;;
  if ready then ret tt else
  (sales_data_connect ev;;
   database_schema_string <- sales_data_get_database_info ev;;
   let instructions := instructions_tuple database_schema_string in
   try_except (initialize_try ev instructions)
              (fun e => logger_error (error_message e))).

(** [__main__]: [asyncio.run(initialize())] then [exit(0)]; an exception that
    escapes [initialize] escapes [asyncio.run] and the interpreter exits with
    status 1 before reaching [exit(0)]. *)
Definition main (ev : env) : nat :=
  match fst (initialize ev init_state) with
  | Ok _ => 0
  | Exc _ => 1
  end.

(* ------------------------------------------------------------------ *)
(** ** Reading the call log *)

Definition raised (e : event) : bool :=
  match ev_outcome e with Raised _ => true | Returned _ => false end.

Definition has_raise (tr : list event) : bool := existsb raised tr.

(** The message of the first call that raised, if any. *)
Fixpoint first_raise (tr : list event) : option string :=
  match tr with
  | [] => None
  | Event _ (Raised m) :: _ => Some m
  | _ :: tr' => first_raise tr'
  end.

(** Nothing was called after a call that raised. *)
Fixpoint raise_is_last (tr : list event) : bool :=
  match tr with
  | [] => true
  | [_] => true
  | e :: tr' => negb (raised e) && raise_is_last tr'
  end.

(** Ids of the agents and threads the service created. *)
Definition created_ids (tr : list event) : list nat :=
  flat_map (fun e => match e with
                     | Event (CreateAgent _ _ _ _) (Returned (Some id)) => [id]
                     | Event CreateThread (Returned (Some id)) => [id]
                     | _ => []
                     end) tr.

(** Ids passed to a delete call that went through. *)
Definition deleted_ids (tr : list event) : list nat :=
  flat_map (fun e => match e with
                     | Event (DeleteThread id) (Returned _) => [id]
                     | Event (DeleteAgent id) (Returned _) => [id]
                     | _ => []
                     end) tr.

(** Agents and threads still present on the service. *)
Definition live_ids (tr : list event) : list nat :=
  filter (fun id => negb (existsb (Nat.eqb id) (deleted_ids tr))) (created_ids tr).

Definition count_connect (tr : list event) : nat :=
  length (filter (fun e => match ev_call e with Connect => true | _ => false end) tr).

(** Tool definitions attached to the agents that were created. *)
Definition attached_tools (tr : list event) : list tool_def :=
  flat_map (fun e => match ev_call e with
                     | CreateAgent _ _ _ (Some tools) => tools
                     | _ => []
                     end) tr.

(* ------------------------------------------------------------------ *)
(** ** The two agent runs as one parameterised turn *)

Record turn_config := TurnConfig {
  tc_instructions : string;
  tc_tools : option (list tool_def);
  tc_content : string;
  tc_max_completion_tokens : Z;
  tc_max_prompt_tokens : Z;
  tc_temperature : option Q
}.

Definition run_turn (ev : env) (cfg : turn_config) : M unit :=
  agent <- create_agent ev (env_model ev) "Contoso Sales Assistant"
             (tc_instructions cfg) (tc_tools cfg);;
  thread <- create_thread ev;;
  message <- create_message ev thread "user" (tc_content cfg);;
  stream <- create_stream ev thread agent (MyEventHandler functions)
              (tc_max_completion_tokens cfg) (tc_max_prompt_tokens cfg)
              (tc_temperature cfg);;
  until_done ev stream;;
  delete_thread ev thread;;
  delete_agent ev agent.

(** Lines 96-127. *)
Definition turn1_config : turn_config :=
  TurnConfig "You are a helpful assistant" None "what is love in 100 words"
             10480%Z 10480%Z None.

(** Lines 133-166. *)
Definition turn2_config (instructions : list string) : turn_config :=
  TurnConfig (py_str_tuple instructions) (Some (definitions functions))
             "What were the total sales by region for 2023"
             4096%Z 4096%Z (Some (1 # 5)%Q).

(** The calls of one turn whose first created id is [base]. *)
Definition turn_calls (ev : env) (cfg : turn_config) (base : nat) : list api_call :=
  [ CreateAgent (env_model ev) "Contoso Sales Assistant" (tc_instructions cfg) (tc_tools cfg);
    CreateThread;
    CreateMessage (S base) "user" (tc_content cfg);
    CreateStream (S base) base (MyEventHandler functions)
                 (tc_max_completion_tokens cfg) (tc_max_prompt_tokens cfg)
                 (tc_temperature cfg);
    UntilDone (3 + base);
    DeleteThread (S base);
    DeleteAgent base ].

(** Every call of a first [initialize] in a fresh process, in order. *)
Definition expected_calls (ev : env) : list api_call :=
  [Connect; GetDatabaseInfo]
  ++ turn_calls ev turn1_config 0
  ++ turn_calls ev (turn2_config (instructions_tuple (env_schema ev))) 4.

(** What the first [initialize] returns in a fresh process. *)
Definition setup_outcome (ev : env) : result unit :=
  match env_fail ev 0 with
  | Some e => Exc e
  | None => match env_fail ev 1 with
            | Some e => Exc e
            | None => Ok tt
            end
  end.

(* ------------------------------------------------------------------ *)
(** ** Concrete environments *)

Definition newline : ascii := ascii_of_nat 10.

(** A two-table schema, one table per line. *)
Definition schema_two_tables : string :=
  "Table: sales, Columns: region, revenue" ++ String newline
  "Table: products, Columns: name, category".

Definition env_ok : env := Env (Some "gpt-4o") schema_two_tables (fun _ => None).

(** Call 6 is [s.until_done()] of the first turn. *)
Definition env_stream_fail : env :=
  Env (Some "gpt-4o") schema_two_tables
      (fun k => if Nat.eqb k 6 then Some "stream failed" else None).

Definition env_connect_fail : env :=
  Env (Some "gpt-4o") schema_two_tables
      (fun k => if Nat.eqb k 0 then Some "unable to open database file" else None).

Example initialize_ok_calls :
  map ev_call (trace (snd (initialize env_ok init_state))) = expected_calls env_ok.
Proof. vm_compute. reflexivity. Qed.

(* ------------------------------------------------------------------ *)
(** ** The stream event handler

    [my_event_handler.MyEventHandler] is imported by main.py but its source is
    not part of the files at hand; the module below follows the design of
    spec.md sections 3 and 4.3. *)

Module EventBridge.

(** Modelled from the spec: the tool-call request carried by a stream event
    of [MyEventHandler] (spec section 3, StreamEvent). *)
Record tool_call := ToolCall { call_id : string; tool_name : string; arguments : string }.

(** Modelled from the spec: ToolCallResult (spec section 3). *)
Record tool_call_result := ToolCallResult { result_call_id : string; output : string }.

(** Modelled from the spec: StreamEvent; a batch of tool-call-requested
    events of one turn is carried together (spec section 3). *)
Inductive stream_event :=
| MessageDelta (text : string)
| ToolCallsRequested (batch : list tool_call)
| RunCompleted
| RunFailed (error : string).

(** Modelled from the spec: Idle, Streaming, ToolsPending, Completed,
    Failed (spec section 4.3); a stream starts in [Streaming] once opened. *)
Inductive bridge_state :=
| Idle
| Streaming
| ToolsPending
| Completed
| Failed (error : string).

Record bridge := Bridge {
  phase : bridge_state;
  sink : list string;                           (* forwarded message text *)
  submissions : list (list tool_call_result)    (* one submission per batch *)
}.

Section Handler.

(** [ToolRegistry.invoke name arguments]: total, errors come back as JSON. *)
Variable invoke : string -> string -> string.

(** The order in which the executions of a batch complete. *)
Variable schedule : list tool_call -> list tool_call.

Definition answer (c : tool_call) : tool_call_result :=
  ToolCallResult (call_id c) (invoke (tool_name c) (arguments c)).

(** Modelled from the spec: resolve every call of the batch, in completion
    order, and submit all results together (spec section 4.3). *)
Definition resolve_batch (batch : list tool_call) : list tool_call_result :=
  map answer (schedule batch).

(** Modelled from the spec: one event of [MyEventHandler] (spec section 4.3).
    A drained or failed stream takes no further event. *)
Definition step (b : bridge) (e : stream_event) : bridge :=
  match phase b with
  | Completed | Failed _ => b
  | _ =>
      match e with
      | MessageDelta t => Bridge Streaming (sink b ++ [t]) (submissions b)
      | ToolCallsRequested batch =>
          (* ToolsPending, then back to Streaming once submitted *)
          Bridge Streaming (sink b) (submissions b ++ [resolve_batch batch])
      | RunCompleted => Bridge Completed (sink b) (submissions b)
      | RunFailed err => Bridge (Failed err) (sink b) (submissions b)
      end
  end.

Definition run (events : list stream_event) : bridge :=
  fold_left step events (Bridge Streaming [] []).

End Handler.

(** The batches requested before the stream is drained or fails. *)
Fixpoint batches_until_end (events : list stream_event) : list (list tool_call) :=
  match events with
  | [] => []
  | ToolCallsRequested batch :: rest => batch :: batches_until_end rest
  | (RunCompleted | RunFailed _) :: _ => []
  | MessageDelta _ :: rest => batches_until_end rest
  end.

End EventBridge.

(* ------------------------------------------------------------------ *)
(** ** Proof tools *)

(** Split on the outcome of every call the goal mentions. *)
Ltac split_calls :=
  repeat (cbv beta iota zeta delta [initialize initialize_try run_turn bind ret
               try_except get_AGENT_READY logger_error sdk record_event
               sales_data_connect sales_data_get_database_info create_agent
               create_thread create_message create_stream until_done
               delete_thread delete_agent AGENT_READY trace next_id logs
               fst snd app length init_state tc_instructions tc_tools tc_content
               tc_max_completion_tokens tc_max_prompt_tokens tc_temperature] in *;
          match goal with
          | |- context [env_fail ?e ?k] => destruct (env_fail e k) eqn:?
          end).

(** Whether the stream still takes events. *)
Definition open_phase (p : EventBridge.bridge_state) : bool :=
  match p with
  | EventBridge.Completed | EventBridge.Failed _ => false
  | _ => true
  end.

(** Two SQL tool calls of one batch, for the bridge. *)
Definition call_a : EventBridge.tool_call :=
  EventBridge.ToolCall "call_a" "async_fetch_sales_data_using_sqlite_query"
                       "SELECT SUM(revenue) FROM sales".

Definition call_b : EventBridge.tool_call :=
  EventBridge.ToolCall "call_b" "async_fetch_sales_data_using_sqlite_query"
                       "SELECT region FROM sales".

Definition sample_events : list EventBridge.stream_event :=
  [EventBridge.MessageDelta "Looking up";
   EventBridge.ToolCallsRequested [call_a; call_b];
   EventBridge.RunCompleted;
   EventBridge.ToolCallsRequested [call_a]].

(* ------------------------------------------------------------------ *)
(** ** Further readings of a run *)

Fixpoint str_forallb (f : ascii -> bool) (s : string) : bool :=
  match s with
  | EmptyString => true
  | String c s' => f c && str_forallb f s'
  end.

(** The characters [str.splitlines] breaks a line at, among U+0000..U+00FF:
    LF, VT, FF, CR, the separators U+001C..U+001E and NEL (U+0085). *)
Definition line_break (c : ascii) : bool :=
  existsb (Nat.eqb (nat_of_ascii c)) [10; 11; 12; 13; 28; 29; 30; 133].

(** A character [repr] copies as it is, whatever the quote: printable ASCII
    other than the backslash. *)
Definition plain_char (c : ascii) : bool :=
  let n := nat_of_ascii c in
  Nat.leb 32 n && Nat.ltb n 127 && negb (Ascii.eqb c backslash).

(** Check, for every agent created with tools, [p] of its instructions and
    tools. *)
Definition agents_with_tools_satisfy (p : string -> list tool_def -> bool)
  (calls : list api_call) : bool :=
  forallb (fun c => match c with
                    | CreateAgent _ _ instr (Some tools) => p instr tools
                    | _ => true
                    end) calls.

Definition agents_satisfy (p : string -> bool) (calls : list api_call) : bool :=
  forallb (fun c => match c with
                    | CreateAgent _ _ instr _ => p instr
                    | _ => true
                    end) calls.

(** Whether the run got as far as creating the sales agent (the one with
    tools). *)
Definition reached_sales_agent (tr : list event) : bool :=
  existsb (fun e => match ev_call e with
                    | CreateAgent _ _ _ (Some _) => true
                    | _ => false
                    end) tr.

Fixpoint memb (x : nat) (l : list nat) : bool :=
  match l with
  | [] => false
  | y :: l' => Nat.eqb x y || memb x l'
  end.

Definition remove_id (x : nat) (l : list nat) : list nat :=
  filter (fun y => negb (Nat.eqb x y)) l.

(** Every call names only agents, threads and streams that were created
    earlier in the run and not deleted since. *)
Fixpoint refs_live (agents threads streams : list nat) (tr : list event) : bool :=
  match tr with
  | [] => true
  | Event c out :: tr' =>
      match c, out with
      | CreateAgent _ _ _ _, Returned (Some id) => refs_live (id :: agents) threads streams tr'
      | CreateThread, Returned (Some id) => refs_live agents (id :: threads) streams tr'
      | CreateMessage t _ _, _ => memb t threads && refs_live agents threads streams tr'
      | CreateStream t a _ _ _ _, Returned (Some id) =>
          memb t threads && memb a agents && refs_live agents threads (id :: streams) tr'
      | CreateStream t a _ _ _ _, _ =>
          memb t threads && memb a agents && refs_live agents threads streams tr'
      | UntilDone st, _ => memb st streams && refs_live agents threads streams tr'
      | DeleteThread t, Returned _ =>
          memb t threads && refs_live agents (remove_id t threads) streams tr'
      | DeleteAgent a, Returned _ =>
          memb a agents && refs_live (remove_id a agents) threads streams tr'
      | DeleteThread t, Raised _ => memb t threads && refs_live agents threads streams tr'
      | DeleteAgent a, Raised _ => memb a agents && refs_live agents threads streams tr'
      | _, _ => refs_live agents threads streams tr'
      end
  end.

(** A one-line schema with nothing [repr] escapes. *)
Definition env_plain : env :=
  Env (Some "gpt-4o") "Table: sales, Columns: region, revenue, shipping_cost"
      (fun _ => None).

(* ================================================================== *)
(** * Theorems *)

(** What a first [initialize] returns depends only on the two data-store
    calls that precede the [try] block. *)
Lemma initialize_fresh_outcome (ev : env) :
  fst (initialize ev init_state) = setup_outcome ev.
Proof. unfold setup_outcome. split_calls; reflexivity. Qed.

(** Unfold the expected call sequence of the two turns down to constructors. *)
Ltac unfold_expected :=
  unfold expected_calls, turn_calls, turn1_config, turn2_config;
  cbv beta iota delta [app tc_instructions tc_tools tc_content
                       tc_max_completion_tokens tc_max_prompt_tokens tc_temperature].

Ltac read_log :=
  cbv beta iota delta [map ev_call app has_raise existsb raised ev_outcome
                       raise_is_last negb andb orb].

(* ------------------------------------------------------------------ *)
(** ** C1: cleanup of threads and agents *)

(** C1 (as amended): every thread and agent the first [initialize] deletes
    was created by it, none is deleted twice, all of them are deleted when no
    call raises, and a call that raises is the last call made, so the
    deletions still pending in its turn are skipped. *)
Theorem initialize_cleanup (ev : env) :
  let tr := trace (snd (initialize ev init_state)) in
  NoDup (deleted_ids tr) /\ incl (deleted_ids tr) (created_ids tr) /\
  (has_raise tr = false -> live_ids tr = []) /\ raise_is_last tr = true.
Proof.
  split_calls; cbn;
  (split; [repeat constructor; cbn; intuition discriminate|]);
  (split; [intros x Hx; cbn in *; tauto|]);
  (split; [intros H; try discriminate H; reflexivity | reflexivity]).
Qed.

(** C1 (counterexample): when the stream of the first turn fails, its thread
    (id 1) and agent (id 0) are never deleted. *)
Lemma initialize_stream_failure_leaks :
  deleted_ids (trace (snd (initialize env_stream_fail init_state))) = [] /\
  live_ids (trace (snd (initialize env_stream_fail init_state))) = [0; 1].
Proof. vm_compute. split; reflexivity. Qed.

(* ------------------------------------------------------------------ *)
(** ** C3: exceptions inside the [try] block *)

(** C3 (as amended): once the data-store setup has succeeded, [initialize]
    returns normally whatever happens in the [try] block; the exception, if
    one was raised, is only logged, once, with its message, and the call that
    raised it is the last call made: the remaining steps are skipped. *)
Theorem initialize_exceptions_swallowed (ev : env)
  (Hconnect : env_fail ev 0 = None) (Hinfo : env_fail ev 1 = None) :
  fst (initialize ev init_state) = Ok tt /\
  logs (snd (initialize ev init_state)) =
    match first_raise (trace (snd (initialize ev init_state))) with
    | Some e => [error_message e]
    | None => []
    end /\
  raise_is_last (trace (snd (initialize ev init_state))) = true.
Proof. split_calls; try congruence; repeat split; reflexivity. Qed.

Lemma initialize_exceptions_swallowed_witness :
  env_fail env_stream_fail 0 = None /\ env_fail env_stream_fail 1 = None /\
  fst (initialize env_stream_fail init_state) = Ok tt /\
  logs (snd (initialize env_stream_fail init_state)) =
    match first_raise (trace (snd (initialize env_stream_fail init_state))) with
    | Some e => [error_message e]
    | None => []
    end /\
  raise_is_last (trace (snd (initialize env_stream_fail init_state))) = true.
Proof.
  split; [reflexivity|]. split; [reflexivity|].
  apply (initialize_exceptions_swallowed env_stream_fail); reflexivity.
Defined.

(** C3 (counterexample): a failed stream and a successful run look the same
    to the caller of [initialize]: both return [None]. *)
Lemma initialize_failure_not_surfaced :
  fst (initialize env_stream_fail init_state) = Ok tt /\
  fst (initialize env_ok init_state) = Ok tt /\
  logs (snd (initialize env_stream_fail init_state)) = [error_message "stream failed"].
Proof. vm_compute. repeat split. Qed.

(* ------------------------------------------------------------------ *)
(** ** C4: the exit status *)

(** C4 (as amended): the process exits with status 0 whenever
    [sales_data.connect()] and [sales_data.get_database_info()] succeed, even
    when the [try] block failed; when one of them raises, the exception
    escapes [asyncio.run] and the status is 1. *)
Theorem main_exit_status (ev : env) :
  main ev = match setup_outcome ev with Ok _ => 0 | Exc _ => 1 end.
Proof.
  unfold main. rewrite initialize_fresh_outcome. reflexivity.
Qed.

(** C4 (counterexample): a database that cannot be opened gives status 1. *)
Lemma main_connect_failure_status : main env_connect_fail = 1.
Proof. vm_compute. reflexivity. Qed.

(* ------------------------------------------------------------------ *)
(** ** C5: the two agent runs *)

(** C5 (as amended): the [try] block is the same seven-step turn run twice
    (create agent, thread and message, open and drain the stream, delete
    thread and agent) with the same model, agent name and event handler; the
    two turns differ in the agent instructions, the attached tools (none,
    then the function definitions), the user message, the token limits and
    the temperature (SDK default, then 0.2). *)
Theorem initialize_two_turns (ev : env) (instructions : list string) (s : state) :
  initialize_try ev instructions s
    = (run_turn ev turn1_config;; run_turn ev (turn2_config instructions)) s /\
  tc_tools turn1_config = None /\
  tc_tools (turn2_config instructions) = Some (definitions functions) /\
  tc_temperature turn1_config = None /\
  tc_temperature (turn2_config instructions) = Some (1 # 5)%Q /\
  tc_content turn1_config <> tc_content (turn2_config instructions) /\
  (tc_max_completion_tokens turn1_config, tc_max_prompt_tokens turn1_config) = (10480%Z, 10480%Z) /\
  (tc_max_completion_tokens (turn2_config instructions),
   tc_max_prompt_tokens (turn2_config instructions)) = (4096%Z, 4096%Z).
Proof.
  split.
  - destruct s as [ready tr n l]. unfold turn1_config, turn2_config.
    split_calls; reflexivity.
  - repeat split; cbn; congruence.
Qed.

(** C5 (counterexample): in a run where every call succeeds, the first agent
    has no tools while the second has the function definitions, and only
    the second stream sets a temperature. *)
Lemma turns_differ_in_tools_and_temperature :
  let calls := map ev_call (trace (snd (initialize env_ok init_state))) in
  nth_error calls 2 = Some (CreateAgent (Some "gpt-4o") "Contoso Sales Assistant"
                                        "You are a helpful assistant" None) /\
  (match nth_error calls 9 with
   | Some (CreateAgent _ _ _ tools) => tools = Some (definitions functions)
   | _ => False
   end) /\
  nth_error calls 5 = Some (CreateStream 1 0 (MyEventHandler functions)
                                         10480%Z 10480%Z None) /\
  nth_error calls 12 = Some (CreateStream 5 4 (MyEventHandler functions)
                                          4096%Z 4096%Z (Some (1 # 5)%Q)).
Proof. vm_compute. repeat split. Qed.

(* ------------------------------------------------------------------ *)
(** ** C6: the order of the steps of a turn *)

(** C6 (as amended): the calls of the first [initialize] are always a prefix
    of [expected_calls]: connect, read the schema, then for each turn create
    the agent, create the thread, post the user message, open the stream
    (token limits; temperature 0.2 and attached tools only in the second
    turn), drain it, delete the thread, delete the agent.  Without an
    exception the whole sequence runs; a call that raises is the last one. *)
Theorem initialize_call_order (ev : env) :
  let tr := trace (snd (initialize ev init_state)) in
  (exists rest, expected_calls ev = (map ev_call tr ++ rest)%list) /\
  (has_raise tr = false -> map ev_call tr = expected_calls ev) /\
  raise_is_last tr = true.
Proof.
  unfold_expected.
  split_calls; read_log.
  all: (split; [eexists; reflexivity|]).
  all: (split; [intros H; try discriminate H; reflexivity | reflexivity]).
Qed.

(** C6 (counterexample): the stream of the first turn is opened with no
    temperature, and a stream failure skips the deletion of the session. *)
Lemma turn_without_temperature_or_cleanup :
  nth_error (map ev_call (trace (snd (initialize env_ok init_state)))) 5
    = Some (CreateStream 1 0 (MyEventHandler functions) 10480%Z 10480%Z None) /\
  map ev_call (trace (snd (initialize env_stream_fail init_state)))
    = firstn 7 (expected_calls env_stream_fail).
Proof. vm_compute. split; reflexivity. Qed.

(* ------------------------------------------------------------------ *)
(** ** C10: exceptions of the data-store setup *)

(** C10: an exception from [sales_data.connect()] or
    [sales_data.get_database_info()] propagates out of the first
    [initialize] and nothing is logged; once both succeed, [initialize]
    returns normally. *)
Theorem initialize_setup_errors_escape (ev : env) :
  fst (initialize ev init_state) = setup_outcome ev /\
  (setup_outcome ev <> Ok tt -> logs (snd (initialize ev init_state)) = []).
Proof.
  unfold setup_outcome. split_calls; cbn; split; try reflexivity; try congruence.
Qed.

(* ------------------------------------------------------------------ *)
(** ** C7: the schema in the agent instructions *)

(** C7 (defect): the instructions are [str] of a tuple, so each element
    appears as its [repr]; a schema with a line break reaches the agent with
    the break written as a backslash and an [n], and the schema string itself
    is not part of the instructions.  The schema is read once in this run. *)
Theorem instructions_hold_escaped_schema :
  let calls := map ev_call (trace (snd (initialize env_ok init_state))) in
  length (filter (fun c => match c with GetDatabaseInfo => true | _ => false end) calls) = 1 /\
  match nth_error calls 9 with
  | Some (CreateAgent _ _ instr _) =>
      py_contains schema_two_tables instr = false /\
      py_contains (repr_body squote schema_two_tables) instr = true
  | _ => False
  end.
Proof. vm_compute. repeat split. Qed.

(* ------------------------------------------------------------------ *)
(** ** C8: the tools of the sales agent *)

(** C8 (defect): [toolset] holds the code interpreter, but no agent created
    by the first [initialize] gets it: only [functions.definitions] is ever
    attached. *)
Theorem code_interpreter_never_attached (ev : env) :
  ~ In CodeInterpreterDefinition (attached_tools (trace (snd (initialize ev init_state)))) /\
  In CodeInterpreterDefinition (flat_map definitions toolset).
Proof.
  split.
  - split_calls; cbn; intuition discriminate.
  - cbn. tauto.
Qed.

(* ------------------------------------------------------------------ *)
(** ** C9: the [AGENT_READY] guard *)

(** C9 (defect): [initialize] never changes [AGENT_READY], so the guard never
    fires: a second call in the same process connects again and repeats the
    whole run. *)
Theorem initialize_never_sets_ready :
  (forall ev s, AGENT_READY (snd (initialize ev s)) = AGENT_READY s) /\
  (let s1 := snd (initialize env_ok init_state) in
   let s2 := snd (initialize env_ok s1) in
   AGENT_READY s2 = false /\ count_connect (trace s2) = 2 /\ length (trace s2) = 32).
Proof.
  split.
  - intros ev [[] tr n l]; [reflexivity|].
    split_calls; reflexivity.
  - vm_compute. repeat split.
Qed.

(* ------------------------------------------------------------------ *)
(** ** C2: answering a batch of tool calls *)

Lemma bridge_closed_stays (invoke : string -> string -> string)
  (schedule : list EventBridge.tool_call -> list EventBridge.tool_call)
  (events : list EventBridge.stream_event) (b : EventBridge.bridge) :
  open_phase (EventBridge.phase b) = false ->
  fold_left (EventBridge.step invoke schedule) events b = b.
Proof.
  induction events as [|e events IH]; intros Hb; [reflexivity|].
  cbn [fold_left].
  replace (EventBridge.step invoke schedule b e) with b; [apply IH; exact Hb|].
  unfold EventBridge.step. destruct (EventBridge.phase b); try discriminate; reflexivity.
Qed.

Lemma bridge_submissions (invoke : string -> string -> string)
  (schedule : list EventBridge.tool_call -> list EventBridge.tool_call)
  (events : list EventBridge.stream_event) (b : EventBridge.bridge) :
  open_phase (EventBridge.phase b) = true ->
  EventBridge.submissions (fold_left (EventBridge.step invoke schedule) events b)
  = (EventBridge.submissions b
     ++ map (EventBridge.resolve_batch invoke schedule)
            (EventBridge.batches_until_end events))%list.
Proof.
  revert b. induction events as [|e events IH]; intros b Hb.
  - cbn. rewrite app_nil_r. reflexivity.
  - cbn [fold_left].
    assert (Hstep : EventBridge.step invoke schedule b e =
              match e with
              | EventBridge.MessageDelta t =>
                  EventBridge.Bridge EventBridge.Streaming (EventBridge.sink b ++ [t])%list
                                     (EventBridge.submissions b)
              | EventBridge.ToolCallsRequested batch =>
                  EventBridge.Bridge EventBridge.Streaming (EventBridge.sink b)
                    (EventBridge.submissions b
                     ++ [EventBridge.resolve_batch invoke schedule batch])%list
              | EventBridge.RunCompleted =>
                  EventBridge.Bridge EventBridge.Completed (EventBridge.sink b)
                                     (EventBridge.submissions b)
              | EventBridge.RunFailed err =>
                  EventBridge.Bridge (EventBridge.Failed err) (EventBridge.sink b)
                                     (EventBridge.submissions b)
              end).
    { unfold EventBridge.step. destruct (EventBridge.phase b); try discriminate; reflexivity. }
    rewrite Hstep. clear Hstep.
    destruct e as [t|batch| |err]; cbn [EventBridge.batches_until_end map].
    + rewrite IH by reflexivity. reflexivity.
    + rewrite IH by reflexivity. cbn. rewrite <- app_assoc. reflexivity.
    + rewrite bridge_closed_stays by reflexivity. cbn. rewrite app_nil_r. reflexivity.
    + rewrite bridge_closed_stays by reflexivity. cbn. rewrite app_nil_r. reflexivity.
Qed.

(** C2 (modelled from the spec): whatever order the executions of a batch
    complete in, the handler submits for each batch requested before the
    stream is drained one submission holding exactly one result per
    requested call, the call ids of the results being those of the batch. *)
Theorem bridge_answers_every_call (invoke : string -> string -> string)
  (schedule : list EventBridge.tool_call -> list EventBridge.tool_call)
  (events : list EventBridge.stream_event)
  (Hschedule : Forall (fun batch => Permutation (schedule batch) batch)
                      (EventBridge.batches_until_end events)) :
  Forall2 (fun sub batch =>
             Permutation sub (map (EventBridge.answer invoke) batch) /\
             Permutation (map EventBridge.result_call_id sub)
                         (map EventBridge.call_id batch))
          (EventBridge.submissions (EventBridge.run invoke schedule events))
          (EventBridge.batches_until_end events).
Proof.
  unfold EventBridge.run. rewrite bridge_submissions by reflexivity. cbn [EventBridge.submissions app].
  induction Hschedule as [|batch batches Hperm _ IH]; constructor; [|exact IH].
  unfold EventBridge.resolve_batch. split.
  - apply Permutation_map. exact Hperm.
  - rewrite map_map. cbn. apply Permutation_map. exact Hperm.
Qed.

Lemma bridge_answers_every_call_witness :
  Forall (fun batch => Permutation (@rev EventBridge.tool_call batch) batch)
         (EventBridge.batches_until_end sample_events) /\
  Forall2 (fun sub batch =>
             Permutation sub (map (EventBridge.answer (fun _ _ => "[]")) batch) /\
             Permutation (map EventBridge.result_call_id sub)
                         (map EventBridge.call_id batch))
          (EventBridge.submissions
             (EventBridge.run (fun _ _ => "[]") (@rev EventBridge.tool_call) sample_events))
          (EventBridge.batches_until_end sample_events).
Proof.
  assert (H : Forall (fun batch => Permutation (@rev EventBridge.tool_call batch) batch)
                     (EventBridge.batches_until_end sample_events)).
  { cbn. repeat constructor. }
  split; [exact H|].
  apply (bridge_answers_every_call (fun _ _ => "[]") (@rev EventBridge.tool_call) sample_events).
  exact H.
Defined.

(* ------------------------------------------------------------------ *)
(** ** Further properties of [initialize] *)

(** The calls of a first [initialize] are a prefix of [expected_calls]. *)
Lemma initialize_calls_prefix (ev : env) :
  exists rest, expected_calls ev = (map ev_call (trace (snd (initialize ev init_state))) ++ rest)%list.
Proof.
  unfold expected_calls, turn_calls, turn1_config, turn2_config.
  cbv beta iota delta [app tc_instructions tc_tools tc_content
                       tc_max_completion_tokens tc_max_prompt_tokens tc_temperature].
  split_calls; cbv beta iota delta [map ev_call app]; eexists; reflexivity.
Qed.

Lemma has_char_app (c : ascii) (a b : string) :
  has_char c (a ++ b) = has_char c a || has_char c b.
Proof. induction a as [|d a IH]; cbn; [reflexivity|]. rewrite IH, orb_assoc. reflexivity. Qed.

Definition no_line_break (s : string) : bool :=
  str_forallb (fun c => negb (line_break c)) s.

Lemma str_forallb_app (f : ascii -> bool) (a b : string) :
  str_forallb f (a ++ b) = str_forallb f a && str_forallb f b.
Proof. induction a as [|d a IH]; cbn; [reflexivity|]. rewrite IH, andb_assoc. reflexivity. Qed.

Lemma repr_char_no_line_break (c : ascii) :
  no_line_break (repr_char squote c) = true /\
  no_line_break (repr_char dquote c) = true.
Proof. destruct c as [[] [] [] [] [] [] [] []]; vm_compute; split; reflexivity. Qed.

Lemma repr_body_no_line_break (q : ascii) (s : string) :
  q = squote \/ q = dquote -> no_line_break (repr_body q s) = true.
Proof.
  intros Hq. induction s as [|c s IH]; [reflexivity|].
  cbn [repr_body]. unfold no_line_break in *. rewrite str_forallb_app, IH, andb_true_r.
  destruct Hq; subst; apply repr_char_no_line_break.
Qed.

Lemma py_repr_no_line_break (s : string) : no_line_break (py_repr s) = true.
Proof.
  unfold py_repr.
  set (q := if has_char squote s && negb (has_char dquote s) then dquote else squote).
  assert (Hq : q = squote \/ q = dquote)
    by (unfold q; destruct (_ && _); [right|left]; reflexivity).
  pose proof (repr_body_no_line_break q s Hq) as Hb.
  unfold no_line_break in *. cbn [str_forallb]. rewrite str_forallb_app, Hb.
  destruct Hq as [Hq|Hq]; rewrite Hq; reflexivity.
Qed.

Lemma join_comma_no_line_break (xs : list string) :
  Forall (fun x => no_line_break x = true) xs ->
  no_line_break (join_comma xs) = true.
Proof.
  induction 1 as [|x xs Hx _ IH]; [reflexivity|].
  destruct xs as [|y ys]; [exact Hx|].
  change (join_comma (x :: y :: ys)) with (x ++ ", " ++ join_comma (y :: ys)).
  unfold no_line_break in *. rewrite !str_forallb_app, Hx, IH. reflexivity.
Qed.

Lemma py_str_tuple_no_line_break (t : list string) :
  no_line_break (py_str_tuple t) = true.
Proof.
  assert (Hall : Forall (fun x => no_line_break x = true) (map py_repr t)).
  { apply Forall_forall. intros x Hx. apply in_map_iff in Hx.
    destruct Hx as [y [<- _]]. apply py_repr_no_line_break. }
  destruct t as [|x [|y ys]].
  - reflexivity.
  - cbn [py_str_tuple]. pose proof (py_repr_no_line_break x) as Hx.
    unfold no_line_break in *. rewrite !str_forallb_app, Hx. reflexivity.
  - unfold py_str_tuple. pose proof (join_comma_no_line_break _ Hall) as Hj.
    unfold no_line_break in *. rewrite !str_forallb_app, Hj. reflexivity.
Qed.

Lemma agents_satisfy_app (p : string -> bool) (a b : list api_call) :
  agents_satisfy p (a ++ b) = true -> agents_satisfy p a = true.
Proof. unfold agents_satisfy. rewrite forallb_app. apply andb_prop. Qed.

Lemma agents_with_tools_satisfy_app p (a b : list api_call) :
  agents_with_tools_satisfy p (a ++ b) = true -> agents_with_tools_satisfy p a = true.
Proof. unfold agents_with_tools_satisfy. rewrite forallb_app. intros H. apply andb_prop in H. tauto. Qed.

(** The instructions of every agent [initialize] creates hold no line
    break: [str] of the tuple writes each element with [repr], which escapes
    every line-break character, whatever the schema. *)
Theorem agent_instructions_single_line (ev : env) :
  agents_satisfy no_line_break
                 (map ev_call (trace (snd (initialize ev init_state)))) = true.
Proof.
  destruct (initialize_calls_prefix ev) as [rest Hrest].
  apply (agents_satisfy_app _ _ rest). rewrite <- Hrest.
  unfold expected_calls, turn_calls, turn1_config, turn2_config.
  cbv beta iota delta [app agents_satisfy forallb tc_instructions tc_tools tc_content
                       tc_max_completion_tokens tc_max_prompt_tokens tc_temperature andb].
  rewrite py_str_tuple_no_line_break. reflexivity.
Qed.

Lemma prefix_app_r (n x b : string) :
  String.prefix n x = true -> String.prefix n (x ++ b) = true.
Proof.
  revert x. induction n as [|c n IH]; intros x H; [destruct x, b; reflexivity|].
  destruct x as [|d x]; [discriminate H|].
  cbn in *. destruct (ascii_dec c d); [apply IH, H|discriminate H].
Qed.

Lemma prefix_self (n b : string) : String.prefix n (n ++ b) = true.
Proof.
  induction n as [|c n IH]; [destruct b; reflexivity|].
  cbn. destruct (ascii_dec c c) as [_|ne]; [exact IH|contradiction].
Qed.

Lemma py_contains_cons (n x : string) (c : ascii) :
  py_contains n x = true -> py_contains n (String c x) = true.
Proof.
  intros H. change (String.prefix n (String c x) || py_contains n x = true).
  rewrite H, orb_true_r. reflexivity.
Qed.

Lemma py_contains_app_r (n a b : string) :
  py_contains n b = true -> py_contains n (a ++ b) = true.
Proof.
  intros H. induction a as [|c a IH]; [exact H|]. apply py_contains_cons, IH.
Qed.

Lemma py_contains_app_l (n a b : string) :
  py_contains n a = true -> py_contains n (a ++ b) = true.
Proof.
  induction a as [|c a IH]; intros H.
  - destruct n; [destruct b; reflexivity|discriminate H].
  - change (String.prefix n (String c a) || py_contains n a = true) in H.
    change (String.prefix n (String c (a ++ b)) || py_contains n (a ++ b) = true).
    apply orb_true_iff in H. apply orb_true_iff. destruct H as [H|H].
    + left. apply (prefix_app_r n (String c a) b), H.
    + right. apply IH, H.
Qed.

Lemma py_contains_self (n b : string) : py_contains n (n ++ b) = true.
Proof.
  destruct n as [|c n]; [destruct b; reflexivity|].
  change (String.prefix (String c n) (String c n ++ b)
          || py_contains (String c n) (n ++ b) = true).
  rewrite prefix_self. reflexivity.
Qed.

Lemma join_comma_contains (n y : string) (ys : list string) :
  In y ys -> py_contains n y = true -> py_contains n (join_comma ys) = true.
Proof.
  induction ys as [|x xs IH]; intros Hin Hy; [destruct Hin|].
  destruct xs as [|z zs].
  - destruct Hin as [<-|[]]. exact Hy.
  - change (join_comma (x :: z :: zs)) with (x ++ ", " ++ join_comma (z :: zs)).
    destruct Hin as [<-|Hin].
    + apply py_contains_app_l, Hy.
    + apply py_contains_app_r, py_contains_app_r, IH; assumption.
Qed.

Lemma py_str_tuple_contains (n y : string) (t : list string) :
  In y t -> py_contains n (py_repr y) = true -> py_contains n (py_str_tuple t) = true.
Proof.
  intros Hin Hy.
  destruct t as [|x [|z zs]]; [destruct Hin| |].
  - destruct Hin as [<-|[]]. cbn [py_str_tuple].
    apply py_contains_app_r, py_contains_app_l, Hy.
  - unfold py_str_tuple. apply py_contains_app_r, py_contains_app_l.
    apply (join_comma_contains n (py_repr y)); [apply in_map, Hin|exact Hy].
Qed.

Lemma repr_char_plain (c : ascii) :
  plain_char c = true ->
  (Ascii.eqb squote c = false -> repr_char squote c = String c EmptyString) /\
  (Ascii.eqb dquote c = false -> repr_char dquote c = String c EmptyString).
Proof.
  destruct c as [[] [] [] [] [] [] [] []]; vm_compute;
  try (intros H; discriminate H); intros _;
  split; intros H; first [reflexivity | discriminate H].
Qed.

Lemma repr_body_app (q : ascii) (a b : string) :
  repr_body q (a ++ b) = repr_body q a ++ repr_body q b.
Proof.
  induction a as [|c a IH]; [reflexivity|].
  cbn [repr_body append]. rewrite IH. 
  induction (repr_char q c) as [|d r IHr]; [reflexivity|]. cbn. rewrite IHr. reflexivity.
Qed.

Lemma repr_body_plain (s : string) (qc : ascii) :
  (qc = squote \/ qc = dquote) ->
  str_forallb plain_char s = true -> has_char qc s = false -> repr_body qc s = s.
Proof.
  intros Hq. induction s as [|c s IH]; intros Hp Hh; [reflexivity|].
  cbn [str_forallb has_char] in Hp, Hh.
  apply andb_prop in Hp as [Hc Hs]. apply orb_false_iff in Hh as [Hqc Hh].
  cbn [repr_body]. rewrite IH by assumption.
  destruct (repr_char_plain c Hc) as [Hsq Hdq].
  destruct Hq; subst; [rewrite Hsq|rewrite Hdq]; auto.
Qed.

Lemma schema_in_instructions (s : string) :
  str_forallb plain_char s = true ->
  has_char squote s && has_char dquote s = false ->
  py_contains s (py_str_tuple (instructions_tuple s)) = true.
Proof.
  intros Hplain Hquotes.
  set (e3 := "Refer to the Contoso sales database schema: " ++ s ++ ".").
  apply (py_str_tuple_contains s e3).
  { unfold instructions_tuple. right; right; left. reflexivity. }
  assert (Hsq : has_char squote e3 = has_char squote s)
    by (unfold e3; rewrite !has_char_app; destruct (has_char squote s); reflexivity).
  assert (Hdq : has_char dquote e3 = has_char dquote s)
    by (unfold e3; rewrite !has_char_app; destruct (has_char dquote s); reflexivity).
  unfold py_repr. cbv zeta. rewrite Hsq, Hdq.
  destruct (has_char squote s) eqn:Hs.
  - destruct (has_char dquote s) eqn:Hd; [discriminate Hquotes|].
    cbn [andb negb]. apply py_contains_cons. unfold e3.
    rewrite !repr_body_app, (repr_body_plain s dquote) by (auto; right; reflexivity).
    apply py_contains_app_l, py_contains_app_r, py_contains_self.
  - cbn [andb]. apply py_contains_cons. unfold e3.
    rewrite !repr_body_app, (repr_body_plain s squote) by (auto; left; reflexivity).
    apply py_contains_app_l, py_contains_app_r, py_contains_self.
Qed.

(** When the schema text is printable ASCII without backslashes and does not
    hold both kinds of quote, the sales agent's instructions contain it
    verbatim. *)
Theorem plain_schema_reaches_agent (ev : env)
  (Hplain : str_forallb plain_char (env_schema ev) = true)
  (Hquotes : has_char squote (env_schema ev) && has_char dquote (env_schema ev) = false) :
  agents_with_tools_satisfy (fun instr _ => py_contains (env_schema ev) instr)
    (map ev_call (trace (snd (initialize ev init_state)))) = true.
Proof.
  destruct (initialize_calls_prefix ev) as [rest Hrest].
  apply (agents_with_tools_satisfy_app _ _ rest). rewrite <- Hrest.
  unfold expected_calls, turn_calls, turn1_config, turn2_config.
  cbv beta iota delta [app agents_with_tools_satisfy forallb tc_instructions tc_tools
                       tc_content tc_max_completion_tokens tc_max_prompt_tokens
                       tc_temperature andb].
  rewrite schema_in_instructions by assumption. reflexivity.
Qed.

Lemma plain_schema_reaches_agent_witness :
  str_forallb plain_char (env_schema env_plain) = true /\
  has_char squote (env_schema env_plain) && has_char dquote (env_schema env_plain) = false /\
  agents_with_tools_satisfy (fun instr _ => py_contains (env_schema env_plain) instr)
    (map ev_call (trace (snd (initialize env_plain init_state)))) = true.
Proof.
  split; [vm_compute; reflexivity|]. split; [vm_compute; reflexivity|].
  apply plain_schema_reaches_agent; vm_compute; reflexivity.
Defined.

(** Every call of a first [initialize] names only agents, threads and
    streams created earlier in the run and not deleted since. *)
Theorem initialize_refs_live (ev : env) :
  refs_live [] [] [] (trace (snd (initialize ev init_state))) = true.
Proof. split_calls; reflexivity. Qed.

(** The sales agent is only created after the whole first turn went
    through: connect, schema, and the seven calls of the first turn, none of
    which raised. *)
Theorem sales_turn_after_first_turn (ev : env)
  (Hreached : reached_sales_agent (trace (snd (initialize ev init_state))) = true) :
  has_raise (firstn 9 (trace (snd (initialize ev init_state)))) = false /\
  map ev_call (firstn 9 (trace (snd (initialize ev init_state))))
    = ([Connect; GetDatabaseInfo] ++ turn_calls ev turn1_config 0)%list.
Proof.
  revert Hreached.
  split_calls; intros Hreached; try discriminate Hreached; split; reflexivity.
Qed.

Lemma sales_turn_after_first_turn_witness :
  reached_sales_agent (trace (snd (initialize env_ok init_state))) = true /\
  has_raise (firstn 9 (trace (snd (initialize env_ok init_state)))) = false /\
  map ev_call (firstn 9 (trace (snd (initialize env_ok init_state))))
    = ([Connect; GetDatabaseInfo] ++ turn_calls env_ok turn1_config 0)%list.
Proof.
  split; [vm_compute; reflexivity|].
  apply sales_turn_after_first_turn. vm_compute. reflexivity.
Defined.

Lemma tool_name_in_instructions (s : string) :
  py_contains "`fetch_sales_data_using_sqlite_query`"
              (py_str_tuple (instructions_tuple s)) = true.
Proof.
  apply (py_str_tuple_contains _ "Use the `fetch_sales_data_using_sqlite_query` function to execute sales data queries, defaulting to aggregated data unless a detailed breakdown is requested. The function returns JSON-formatted results.").
  - unfold instructions_tuple. right; left. reflexivity.
  - vm_compute. reflexivity.
Qed.

(** The only tool attached to the sales agent is the function named
    [async_fetch_sales_data_using_sqlite_query], while its instructions name
    [fetch_sales_data_using_sqlite_query]. *)
Theorem sales_agent_tool_name (ev : env) :
  agents_with_tools_satisfy
    (fun instr tools =>
       py_contains "`fetch_sales_data_using_sqlite_query`" instr &&
       match tools with
       | [FunctionDefinition n] => String.eqb n "async_fetch_sales_data_using_sqlite_query"
       | _ => false
       end)
    (map ev_call (trace (snd (initialize ev init_state)))) = true.
Proof.
  destruct (initialize_calls_prefix ev) as [rest Hrest].
  apply (agents_with_tools_satisfy_app _ _ rest). rewrite <- Hrest.
  unfold expected_calls, turn_calls, turn1_config, turn2_config.
  cbv beta iota delta [app agents_with_tools_satisfy forallb tc_instructions tc_tools
                       tc_content tc_max_completion_tokens tc_max_prompt_tokens
                       tc_temperature andb].
  rewrite tool_name_in_instructions. reflexivity.
Qed.
